(** * ZScoreTransformer (4-week4/1-exending-sklearn.ipynb)

    A shallow embedding of the last code cell of the notebook,

<<
    class ZScoreTransformer(BaseEstimator, TransformerMixin):
        def __init__(self):
            self.mean_ = None
            self.std_ = None
        def fit(self, X, y=None):
            self.mean_ = np.mean(X, axis=0)
            self.std_ = np.std(X, axis=0)
            return self
        def transform(self, X):
            return (X - self.mean_) / self.std_
        def fit_transform(self, X, y=None):
            return self.fit(X).transform(X)
>>

    together with the part of numpy the four methods call: reduction of a
    two-dimensional array along axis 0, [np.mean], [np.std], and the
    broadcasting binary operators [-] and [/].

    The element arithmetic is a parameter (class [Ufuncs]); it is instantiated
    with IEEE 754 binary64 (what numpy computes with) and with the real
    numbers (the arithmetic without rounding). *)

From Stdlib Require Import List Arith Bool Lia ZArith.
From Stdlib Require Import Floats.
From Stdlib Require Import Reals Lra.
Import ListNotations.

Set Implicit Arguments.

(** ** Element arithmetic

    The scalar operations behind the numpy ufuncs used by [_mean], [_var] and
    [_std] of numpy/_core/_methods.py and by the array operators. *)

Class Ufuncs (F : Type) : Type := {
  zero : F;                       (* the value of an empty [add.reduce] *)
  u_add : F -> F -> F;            (* np.add *)
  u_subtract : F -> F -> F;       (* np.subtract *)
  u_multiply : F -> F -> F;       (* np.multiply *)
  u_true_divide : F -> F -> F;    (* np.true_divide *)
  u_sqrt : F -> F;                (* np.sqrt *)
  of_count : nat -> F             (* an item count used as a divisor *)
}.

(** ** Python exceptions and values *)

Inductive exn : Type :=
| TypeError        (* unsupported operand type(s): 'float' and 'NoneType' *)
| ValueError       (* operands could not be broadcast together *)
| AttributeError.  (* the receiver has no such method *)

Definition addr := nat.

Bind Scope nat_scope with addr.

Section Numpy.

Context {F : Type} `{Ufuncs F}.

(** A two-dimensional array of shape [(length rows, ncols)].  The column count
    is part of the shape: an array without rows still has one. *)
Record ndarray : Type := mk_ndarray {
  ncols : nat;
  rows : list (list F)
}.

Definition nrows (X : ndarray) : nat := length (rows X).

Definition size (X : ndarray) : nat := nrows X * ncols X.

(** Every row has [ncols] entries. *)
Definition rectangular (X : ndarray) : bool :=
  forallb (fun r => length r =? ncols X) (rows X).

Definition item (X : ndarray) (r c : nat) : F := nth c (nth r (rows X) []) zero.

Inductive value : Type :=
| VNone
| VArray (a : ndarray)
| VRef (l : addr).

Fixpoint zip_with (op : F -> F -> F) (l1 l2 : list F) : list F :=
  match l1, l2 with
  | x :: l1', y :: l2' => op x y :: zip_with op l1' l2'
  | _, _ => []
  end.

(** [np.add.reduce(X, axis=0)], numpy's [umr_sum] along axis 0.  The first
    row starts the accumulator and every further row is added to it entry by
    entry, from top to bottom; without rows the result is [ncols] zeros.
    (This is the order numpy follows along the slow axis of a C-ordered array,
    that is for two or more columns; a single contiguous column is summed in
    blocks, which may associate the additions differently from the third row
    on.) *)
Definition add_reduce (X : ndarray) : list F :=
  match rows X with
  | [] => repeat zero (ncols X)
  | r :: rs => fold_left (zip_with u_add) rs r
  end.

(** [np.mean(X, axis=0)], numpy's [_mean]: [umr_sum(arr, axis) / rcount]. *)
Definition np_mean (X : ndarray) : list F :=
  map (fun s => u_true_divide s (of_count (nrows X))) (add_reduce X).

(** numpy's [_var] with [ddof = 0]:
<<
    arrmean = umr_sum(arr, axis, keepdims=True) / rcount
    x = arr - arrmean
    x = umr_multiply(x, x)
    ret = umr_sum(x, axis) / max(rcount - ddof, 0)
>>
    [deviations2] is the array [x] after the multiplication. *)
Definition deviations2 (X : ndarray) : ndarray :=
  let arrmean := np_mean X in
  let x := map (fun r => zip_with u_subtract r arrmean) (rows X) in
  mk_ndarray (ncols X) (map (fun r => zip_with u_multiply r r) x).

Definition np_var (X : ndarray) : list F :=
  map (fun s => u_true_divide s (of_count (nrows X)))
      (add_reduce (deviations2 X)).

(** [np.std(X, axis=0)], numpy's [_std]: [um.sqrt(_var(...))]. *)
Definition np_std (X : ndarray) : list F := map u_sqrt (np_var X).

(** *** Broadcasting

    Two trailing dimensions are compatible when they are equal or one of them
    is 1; the dimension 1 is stretched to the other. *)
Definition broadcast_dim (a b : nat) : option nat :=
  if a =? b then Some a
  else if a =? 1 then Some b
  else if b =? 1 then Some a
  else None.

Definition stretch (k : nat) (l : list F) : list F :=
  match l with
  | [x] => repeat x k
  | _ => l
  end.

(** [X op v] for [X] of shape [(n, k')] and [v] of shape [(k,)]. *)
Definition broadcast_binop (op : F -> F -> F) (X : ndarray) (v : list F)
  : ndarray + exn :=
  match broadcast_dim (ncols X) (length v) with
  | Some k =>
      inl (mk_ndarray k
             (map (fun r => zip_with op (stretch k r) (stretch k v)) (rows X)))
  | None => inr ValueError
  end.

(** [X op o] where [o] is an attribute holding [None] or a one-dimensional
    array.  With [None] numpy runs the operator of the Python objects on every
    element, and [float op None] raises [TypeError]; an array without elements
    calls nothing and comes back with its shape. *)
Definition array_binop (op : F -> F -> F) (X : ndarray) (o : option (list F))
  : ndarray + exn :=
  match o with
  | Some v => broadcast_binop op X v
  | None => if size X =? 0 then inl X else inr TypeError
  end.

(** ** The object store

    Every address holds a [ZScoreTransformer]; [__init__] leaves both
    attributes [None]. *)
Record ZScoreTransformer : Type := mk_ZScoreTransformer {
  mean_ : option (list F);
  std_ : option (list F)
}.

Definition __init__ : ZScoreTransformer := mk_ZScoreTransformer None None.

Definition heap := addr -> ZScoreTransformer.

Definition upd (l : addr) (o : ZScoreTransformer) (h : heap) : heap :=
  fun l' => if l' =? l then o else h l'.

(** Methods run in a state and exception monad over the store. *)
Definition M (A : Type) : Type := heap -> (A + exn) * heap.

Definition ret {A} (a : A) : M A := fun h => (inl a, h).

Definition raise {A} (e : exn) : M A := fun h => (inr e, h).

Definition bind {A B} (m : M A) (k : A -> M B) : M B :=
  fun h =>
    match m h with
    | (inl a, h') => k a h'
    | (inr e, h') => (inr e, h')
    end.

Definition lift {A} (r : A + exn) : M A := fun h => (r, h).

Definition getattr {A} (self : addr) (f : ZScoreTransformer -> A) : M A :=
  fun h => (inl (f (h self)), h).

Definition set_mean_ (self : addr) (v : list F) : M unit :=
  fun h => (inl tt, upd self (mk_ZScoreTransformer (Some v) (std_ (h self))) h).

Definition set_std_ (self : addr) (v : list F) : M unit :=
  fun h => (inl tt, upd self (mk_ZScoreTransformer (mean_ (h self)) (Some v)) h).

Notation "x <- m ;; k" := (bind m (fun x => k))
  (at level 100, m at next level, right associativity).

(** ** The methods *)

(** [self.mean_ = np.mean(X, axis=0); self.std_ = np.std(X, axis=0);
    return self] *)
Definition fit (self : addr) (X : ndarray) (y : value) : M value :=
  _ <- set_mean_ self (np_mean X) ;;
  _ <- set_std_ self (np_std X) ;;
  ret (VRef self).

(** [return (X - self.mean_) / self.std_] *)
Definition transform (self : addr) (X : ndarray) : M ndarray :=
  m <- getattr self mean_ ;;
  d <- lift (array_binop u_subtract X m) ;;
  s <- getattr self std_ ;;
  lift (array_binop u_true_divide d s).

(** The method call [v.transform(X)] on a value. *)
Definition call_transform (v : value) (X : ndarray) : M ndarray :=
  match v with
  | VRef l => transform l X
  | _ => raise AttributeError
  end.

(** [return self.fit(X).transform(X)]: [y] is not passed on, so [fit] runs
    with its default [None]. *)
Definition fit_transform (self : addr) (X : ndarray) (y : value) : M ndarray :=
  r <- fit self X VNone ;;
  call_transform r X.

(** ** The statistics as the specification words them

    One feature column at a time: the arithmetic mean of its entries, and the
    population standard deviation, whose divisor is the number of entries. *)

Definition column (X : ndarray) (c : nat) : list F :=
  map (fun r => nth c r zero) (rows X).

Definition total (l : list F) : F :=
  match l with
  | [] => zero
  | x :: xs => fold_left u_add xs x
  end.

Definition arithmetic_mean (l : list F) : F :=
  u_true_divide (total l) (of_count (length l)).

Definition squared_deviation (mu x : F) : F :=
  u_multiply (u_subtract x mu) (u_subtract x mu).

Definition population_std (l : list F) : F :=
  u_sqrt (u_true_divide (total (map (squared_deviation (arithmetic_mean l)) l))
                        (of_count (length l))).

(** The entry the specification gives for a transformed element. *)
Definition z_score (mu sigma x : F) : F :=
  u_true_divide (u_subtract x mu) sigma.

(** The array of z-scores of [X] for statistics of the width of [X]. *)
Definition standardized (m s : list F) (X : ndarray) : ndarray :=
  mk_ndarray (ncols X)
    (map (fun r => zip_with u_true_divide r s)
         (map (fun r => zip_with u_subtract r m) (rows X))).

End Numpy.

Notation "x <- m ;; k" := (bind m (fun x => k))
  (at level 100, m at next level, right associativity).

Arguments ndarray F : clear implicits.
Arguments value F : clear implicits.
Arguments ZScoreTransformer F : clear implicits.
Arguments heap F : clear implicits.
Arguments M F A : clear implicits.

(** ** Client programs

    A client holds instances and calls their three methods in any order,
    going on after an exception as after a result. *)

Section Clients.

Context {F : Type} `{Ufuncs F}.

Inductive call : Type :=
| CallFit (self : addr) (X : ndarray F) (y : value F)
| CallTransform (self : addr) (X : ndarray F)
| CallFitTransform (self : addr) (X : ndarray F) (y : value F).

Definition call_input (c : call) : ndarray F :=
  match c with
  | CallFit _ X _ | CallTransform _ X | CallFitTransform _ X _ => X
  end.

(** The store a call leaves. *)
Definition run_call (h : heap F) (c : call) : heap F :=
  match c with
  | CallFit self X y => snd (fit self X y h)
  | CallTransform self X => snd (transform self X h)
  | CallFitTransform self X y => snd (fit_transform self X y h)
  end.

Definition run_calls (cs : list call) (h : heap F) : heap F :=
  fold_left run_call cs h.

(** Every instance as [__init__] leaves it. *)
Definition initial : heap F := fun _ => __init__.

(** Both statistics absent, or both present with one entry per column. *)
Definition consistent (o : ZScoreTransformer F) : Prop :=
  match mean_ o, std_ o with
  | None, None => True
  | Some m, Some s => length m = length s
  | _, _ => False
  end.

Definition fitted (o : ZScoreTransformer F) : bool :=
  match mean_ o, std_ o with
  | Some _, Some _ => true
  | _, _ => false
  end.

End Clients.

Arguments call F : clear implicits.

(** ** The two arithmetics *)

(** IEEE 754 binary64 with round to nearest even, numpy's [float64]. *)
Module Float64.

(** A row count as a [float64] divisor. *)
Definition float_of_count (n : nat) : float :=
  PrimFloat.of_uint63 (Uint63.of_Z (Z.of_nat n)).

#[export] Instance ufuncs : Ufuncs float := {|
  zero := 0%float;
  u_add := PrimFloat.add;
  u_subtract := PrimFloat.sub;
  u_multiply := PrimFloat.mul;
  u_true_divide := PrimFloat.div;
  u_sqrt := PrimFloat.sqrt;
  of_count := float_of_count
|}.

(** A store of instances on which nothing has been called yet. *)
Definition fresh : heap float := fun _ => __init__.

(** [|x - y| <= eps], computed in binary64. *)
Definition close_to (x y eps : float) : bool :=
  PrimFloat.leb (PrimFloat.abs (PrimFloat.sub x y)) eps.

(** The example of the specification. *)
Definition example_fit : ndarray float :=
  mk_ndarray 2 [[1; 10]; [2; 20]; [3; 30]]%float.

Definition example_input : ndarray float := mk_ndarray 2 [[2; 20]]%float.

Definition example_fitted : heap float :=
  snd (fit 0 example_fit VNone fresh).

(** A dataset whose first column is constant. *)
Definition constant_column : ndarray float :=
  mk_ndarray 2 [[5; 1]; [5; 2]]%float.



(** An array of one column, fitted, and an array of three columns. *)
Definition one_column : ndarray float := mk_ndarray 1 [[1]; [3]]%float.

Definition three_columns : ndarray float := mk_ndarray 3 [[1; 2; 3]]%float.

Definition one_column_fitted : heap float :=
  snd (fit 0 one_column VNone fresh).

(** An array with two columns and no rows. *)
Definition no_rows : ndarray float := mk_ndarray 2 [].

(** A client that calls [transform] too early, fits, and uses a second
    instance. *)
Definition early_client : list (call float) :=
  [CallTransform 0 example_input;
   CallFit 0 example_fit VNone;
   CallFitTransform 1 three_columns VNone].

(** A client of a fitted instance whose first call raises. *)
Definition late_client : list (call float) :=
  [CallTransform 0 three_columns; CallFit 1 no_rows VNone].

(** A dataset with a missing value in its second column. *)
Definition with_nan : ndarray float :=
  mk_ndarray 2 [[1; nan]; [2; 5]; [3; 7]]%float.

End Float64.

(** The real numbers: the same operations without rounding. *)
Module Exact.

#[export] Instance ufuncs : Ufuncs R := {|
  zero := 0%R;
  u_add := Rplus;
  u_subtract := Rminus;
  u_multiply := Rmult;
  u_true_divide := Rdiv;
  u_sqrt := R_sqrt.sqrt;
  of_count := INR
|}.




End Exact.

(** * Properties that hold for every element arithmetic *)

Section Generic.

Context {F : Type} `{Ufuncs F}.

Implicit Types (X Z : ndarray F) (h : heap F) (l v m s : list F).

Lemma zip_with_length (op : F -> F -> F) l1 l2 :
  length (zip_with op l1 l2) = Nat.min (length l1) (length l2).
Proof.
  revert l2; induction l1 as [|x l1 IH]; intros [|y l2]; simpl; auto.
Qed.

Lemma zip_with_nth (op : F -> F -> F) l1 l2 c d :
  c < length l1 -> c < length l2 ->
  nth c (zip_with op l1 l2) d = op (nth c l1 d) (nth c l2 d).
Proof.
  revert l2 c; induction l1 as [|x l1 IH]; intros [|y l2] [|c]; simpl;
    try lia; auto.
  intros; apply IH; lia.
Qed.

Lemma rectangular_spec X :
  rectangular X = true <-> forall r, In r (rows X) -> length r = ncols X.
Proof.
  unfold rectangular. rewrite forallb_forall.
  split; intros Hr r Hin; specialize (Hr r Hin);
    [apply Nat.eqb_eq | apply Nat.eqb_eq]; exact Hr.
Qed.

(** Adding rows entry by entry adds each column from top to bottom. *)
Lemma fold_zip_add_length (rs : list (list F)) (r : list F) k :
  length r = k -> (forall r', In r' rs -> length r' = k) ->
  length (fold_left (zip_with u_add) rs r) = k.
Proof.
  revert r; induction rs as [|r' rs IH]; intros r Hr Hrs; simpl; auto.
  apply IH.
  - rewrite zip_with_length, Hr, (Hrs r') by (left; reflexivity). lia.
  - intros; apply Hrs; right; assumption.
Qed.

Lemma fold_zip_add_nth (rs : list (list F)) (r : list F) k c :
  length r = k -> (forall r', In r' rs -> length r' = k) -> c < k ->
  nth c (fold_left (zip_with u_add) rs r) zero =
  fold_left u_add (map (fun r' => nth c r' zero) rs) (nth c r zero).
Proof.
  revert r; induction rs as [|r' rs IH]; intros r Hr Hrs Hc; simpl; auto.
  assert (Hr' : length r' = k) by (apply Hrs; left; reflexivity).
  rewrite IH.
  - rewrite zip_with_nth by lia. reflexivity.
  - rewrite zip_with_length, Hr, Hr'. lia.
  - intros; apply Hrs; right; assumption.
  - assumption.
Qed.

Lemma add_reduce_length X :
  rectangular X = true -> length (add_reduce X) = ncols X.
Proof.
  intros Hrect0. pose proof (proj1 (rectangular_spec X) Hrect0) as Hrect.
  unfold add_reduce. destruct (rows X) as [|r rs] eqn:E.
  - apply repeat_length.
  - apply fold_zip_add_length.
    + apply Hrect; left; reflexivity.
    + intros; apply Hrect; right; assumption.
Qed.

Lemma add_reduce_nth X c :
  rectangular X = true -> 1 <= nrows X -> c < ncols X ->
  nth c (add_reduce X) zero = total (column X c).
Proof.
  intros Hrect0 Hn Hc. pose proof (proj1 (rectangular_spec X) Hrect0) as Hrect.
  unfold add_reduce, column, total, nrows in *.
  destruct (rows X) as [|r rs]; simpl in *; [lia|].
  apply fold_zip_add_nth with (k := ncols X); auto.
Qed.

Lemma nth_map_lt {A B} (f : A -> B) (l : list A) n d d' :
  n < length l -> nth n (map f l) d' = f (nth n l d).
Proof.
  revert n; induction l as [|a l IH]; intros [|n]; simpl; try lia; auto.
  intros; apply IH; lia.
Qed.

Lemma np_mean_length X : rectangular X = true -> length (np_mean X) = ncols X.
Proof.
  intros. unfold np_mean. rewrite length_map. apply add_reduce_length; assumption.
Qed.

Lemma column_length X c : length (column X c) = nrows X.
Proof. unfold column, nrows. apply length_map. Qed.

Lemma np_mean_nth X c :
  rectangular X = true -> 1 <= nrows X -> c < ncols X ->
  nth c (np_mean X) zero = arithmetic_mean (column X c).
Proof.
  intros Hrect Hn Hc. unfold np_mean, arithmetic_mean.
  rewrite nth_map_lt with (d := zero) by (rewrite add_reduce_length; assumption).
  rewrite add_reduce_nth, column_length by assumption. reflexivity.
Qed.

Lemma deviations2_rectangular X :
  rectangular X = true -> rectangular (deviations2 X) = true.
Proof.
  intros Hrect. pose proof (proj1 (rectangular_spec X) Hrect) as Hrows.
  apply rectangular_spec. simpl. intros r Hin.
  rewrite map_map in Hin. apply in_map_iff in Hin as (r0 & <- & Hin0).
  rewrite !zip_with_length, np_mean_length, (Hrows r0) by assumption. lia.
Qed.

Lemma deviations2_column X c :
  rectangular X = true -> c < ncols X ->
  column (deviations2 X) c =
  map (squared_deviation (nth c (np_mean X) zero)) (column X c).
Proof.
  intros Hrect Hc. pose proof (proj1 (rectangular_spec X) Hrect) as Hrows.
  unfold column, deviations2; simpl. rewrite !map_map.
  apply map_ext_in. intros r Hin. unfold squared_deviation.
  assert (Hlen : length (zip_with u_subtract r (np_mean X)) = ncols X)
    by (rewrite zip_with_length, np_mean_length, (Hrows r) by assumption; lia).
  rewrite zip_with_nth by lia.
  rewrite zip_with_nth
    by (rewrite ?np_mean_length, ?(Hrows r) by assumption; lia).
  reflexivity.
Qed.

Lemma np_std_length X : rectangular X = true -> length (np_std X) = ncols X.
Proof.
  intros Hrect. unfold np_std, np_var. rewrite !length_map.
  apply (add_reduce_length (deviations2 X)), deviations2_rectangular, Hrect.
Qed.

Lemma np_std_nth X c :
  rectangular X = true -> 1 <= nrows X -> c < ncols X ->
  nth c (np_std X) zero = population_std (column X c).
Proof.
  intros Hrect Hn Hc. unfold np_std, np_var, population_std.
  assert (Hlen : length (add_reduce (deviations2 X)) = ncols X)
    by (apply (add_reduce_length (deviations2 X)), deviations2_rectangular, Hrect).
  rewrite nth_map_lt with (d := zero) by (rewrite length_map; lia).
  rewrite nth_map_lt with (d := zero) by lia.
  rewrite add_reduce_nth.
  - rewrite deviations2_column, np_mean_nth, column_length by assumption.
    reflexivity.
  - apply deviations2_rectangular, Hrect.
  - unfold nrows, deviations2 in *; simpl. rewrite !length_map. exact Hn.
  - exact Hc.
Qed.

(** What [fit] leaves in the store. *)
Lemma fit_run self X (y : value F) h :
  exists h',
    fit self X y h = (inl (VRef self), h') /\
    h' self = mk_ZScoreTransformer (Some (np_mean X)) (Some (np_std X)) /\
    (forall a : addr, a <> self -> h' a = h a).
Proof.
  eexists. split; [reflexivity|]. unfold upd. split.
  - rewrite !Nat.eqb_refl. reflexivity.
  - intros a Ha. apply Nat.eqb_neq in Ha. rewrite !Ha. reflexivity.
Qed.


(** ** [transform] *)

Lemma transform_run self X h :
  transform self X h =
  (match array_binop u_subtract X (mean_ (h self)) with
   | inl d => array_binop u_true_divide d (std_ (h self))
   | inr e => inr e
   end, h).
Proof.
  unfold transform, bind, getattr, lift.
  destruct (array_binop u_subtract X (mean_ (h self))); reflexivity.
Qed.

Lemma stretch_same k l : length l = k -> stretch k l = l.
Proof. destruct l as [|x [|x' l]]; simpl; intros <-; reflexivity. Qed.

Lemma broadcast_binop_same (op : F -> F -> F) X v :
  rectangular X = true -> length v = ncols X ->
  broadcast_binop op X v =
  inl (mk_ndarray (ncols X) (map (fun r => zip_with op r v) (rows X))).
Proof.
  intros Hrect Hv. pose proof (proj1 (rectangular_spec X) Hrect) as Hrows.
  unfold broadcast_binop, broadcast_dim. rewrite Hv, Nat.eqb_refl.
  do 2 f_equal. apply map_ext_in. intros r Hin.
  rewrite !stretch_same; auto.
Qed.

Lemma zipped_rectangular (op : F -> F -> F) X v :
  rectangular X = true -> length v = ncols X ->
  rectangular (mk_ndarray (ncols X) (map (fun r => zip_with op r v) (rows X)))
  = true.
Proof.
  intros Hrect Hv. pose proof (proj1 (rectangular_spec X) Hrect) as Hrows.
  apply rectangular_spec; simpl. intros r Hin.
  apply in_map_iff in Hin as (r0 & <- & Hin0).
  rewrite zip_with_length, Hv, (Hrows r0) by assumption. lia.
Qed.

Lemma zipped_item (op : F -> F -> F) X v r c :
  rectangular X = true -> length v = ncols X ->
  r < nrows X -> c < ncols X ->
  item (mk_ndarray (ncols X) (map (fun r => zip_with op r v) (rows X))) r c =
  op (item X r c) (nth c v zero).
Proof.
  intros Hrect Hv Hr Hc. pose proof (proj1 (rectangular_spec X) Hrect) as Hrows.
  unfold item, nrows in *; simpl.
  rewrite nth_map_lt with (d := []) by assumption.
  apply zip_with_nth; [|lia].
  rewrite (Hrows (nth r (rows X) [])); [assumption | apply nth_In; assumption].
Qed.

Lemma transform_fitted self X h m s :
  mean_ (h self) = Some m -> std_ (h self) = Some s ->
  length m = ncols X -> length s = ncols X -> rectangular X = true ->
  transform self X h = (inl (standardized m s X), h).
Proof.
  intros Hm Hs Hlm Hls Hrect.
  rewrite transform_run, Hm, Hs. simpl.
  rewrite broadcast_binop_same by assumption.
  rewrite broadcast_binop_same; [reflexivity | | exact Hls].
  apply zipped_rectangular; assumption.
Qed.

Lemma standardized_item m s X r c :
  length m = ncols X -> length s = ncols X -> rectangular X = true ->
  r < nrows X -> c < ncols X ->
  item (standardized m s X) r c =
  z_score (nth c m zero) (nth c s zero) (item X r c).
Proof.
  intros Hlm Hls Hrect Hr Hc. unfold standardized, z_score.
  set (D := mk_ndarray (ncols X) (map (fun r => zip_with u_subtract r m) (rows X))).
  assert (HD : rectangular D = true) by (apply zipped_rectangular; assumption).
  change (ncols X) with (ncols D) at 1.
  change (map (fun r => zip_with u_subtract r m) (rows X)) with (rows D).
  rewrite zipped_item; auto.
  - unfold D. rewrite zipped_item by assumption. reflexivity.
  - unfold D, nrows in *; simpl. rewrite length_map. exact Hr.
Qed.

Lemma standardized_rectangular m s X :
  length m = ncols X -> length s = ncols X -> rectangular X = true ->
  rectangular (standardized m s X) = true.
Proof.
  intros Hlm Hls Hrect. unfold standardized.
  set (D := mk_ndarray (ncols X) (map (fun r => zip_with u_subtract r m) (rows X))).
  assert (HD : rectangular D = true) by (apply zipped_rectangular; assumption).
  apply (zipped_rectangular u_true_divide D s HD Hls).
Qed.

Lemma standardized_nrows m s X : nrows (standardized m s X) = nrows X.
Proof. unfold nrows, standardized; simpl. rewrite !length_map. reflexivity. Qed.


(** C2. A fitted instance, given a dataset with as many columns as were
    fitted, returns a dataset of the same shape whose entry at row [r] and
    column [c] is [(value - mean[c]) / spread[c]]; the store, and with it the
    fitted statistics, is the one it was given. *)
Theorem transform_is_elementwise_z_score self X h m s :
  mean_ (h self) = Some m -> std_ (h self) = Some s ->
  length m = ncols X -> length s = ncols X -> rectangular X = true ->
  exists Z,
    transform self X h = (inl Z, h) /\
    nrows Z = nrows X /\ ncols Z = ncols X /\ rectangular Z = true /\
    forall r c, r < nrows X -> c < ncols X ->
      item Z r c =
      u_true_divide (u_subtract (item X r c) (nth c m zero)) (nth c s zero).
Proof.
  intros Hm Hs Hlm Hls Hrect. exists (standardized m s X).
  split; [apply transform_fitted; assumption|].
  split; [apply standardized_nrows|].
  split; [reflexivity|].
  split; [apply standardized_rectangular; assumption|].
  intros r c Hr Hc. apply standardized_item; assumption.
Qed.

(** C3. [fit_transform(D)] is [fit(D)] followed by [transform(D)] on the same
    instance: same result (or exception) and same final store. *)
Theorem fit_transform_is_fit_then_transform self X (y : value F) h :
  fit_transform self X y h = (_ <- fit self X y ;; transform self X) h.
Proof. reflexivity. Qed.

(** C10. Neither the statistics [fit] stores nor the result of
    [fit_transform] depends on the argument [y]. *)
Theorem y_is_ignored self X (y1 y2 : value F) h :
  fit self X y1 h = fit self X y2 h /\
  fit_transform self X y1 h = fit_transform self X y2 h.
Proof. split; reflexivity. Qed.

(** C6, as the code has it.  The code keeps no record of having been fitted:
    before [fit] the attribute [mean_] is [None], and subtracting [None] from
    an array with at least one element raises [TypeError].  The store is left
    as it was. *)
Theorem transform_before_fit_raises self X h :
  mean_ (h self) = None -> size X <> 0 ->
  transform self X h = (inr TypeError, h).
Proof.
  intros Hm Hsize. rewrite transform_run, Hm. simpl.
  apply Nat.eqb_neq in Hsize. rewrite Hsize. reflexivity.
Qed.

(** Where the column counts differ and one of them is 1, numpy stretches it
    to the other and [transform] returns an array. *)
Lemma transform_stretches_single_column self X h m s :
  mean_ (h self) = Some m -> std_ (h self) = Some s ->
  length s = length m -> ncols X <> length m ->
  ncols X = 1 \/ length m = 1 ->
  exists Z, transform self X h = (inl Z, h) /\
            nrows Z = nrows X /\
            ncols Z = if ncols X =? 1 then length m else ncols X.
Proof.
  intros Hm Hs Hlen Hne Hone. rewrite transform_run, Hm, Hs.
  unfold array_binop, broadcast_binop, broadcast_dim. rewrite Hlen.
  apply Nat.eqb_neq in Hne. rewrite Hne.
  destruct (Nat.eqb_spec (ncols X) 1) as [HX|HX]; cbn [ncols].
  - rewrite Nat.eqb_refl. eexists. split; [reflexivity|].
    unfold nrows; cbn [ncols rows]. rewrite !length_map. auto.
  - destruct Hone as [Hone|Hone]; [contradiction|].
    rewrite Hone, Nat.eqb_refl. cbn [ncols].
    apply Nat.eqb_neq in HX. rewrite HX.
    eexists. split; [reflexivity|].
    unfold nrows; cbn [ncols rows]. rewrite !length_map. auto.
Qed.

(** C8, as the code has it.  The column counts are compared by numpy's
    broadcasting only: when they differ and neither of them is 1, the
    subtraction raises [ValueError] and the store is left as it was. *)
Theorem transform_column_count_mismatch self X h m s :
  mean_ (h self) = Some m -> std_ (h self) = Some s ->
  length s = length m ->
  ncols X <> length m -> ncols X <> 1 -> length m <> 1 ->
  transform self X h = (inr ValueError, h).
Proof.
  intros Hm Hs Hlen Hne HX Hk. rewrite transform_run, Hm, Hs.
  unfold array_binop, broadcast_binop, broadcast_dim.
  apply Nat.eqb_neq in Hne, HX, Hk. rewrite Hne, HX, Hk. reflexivity.
Qed.

End Generic.

(** * Properties of the binary64 instance *)

Section Binary64.

Import Float64.

Open Scope float_scope.

(** C5. Fitting the example stores the means 2 and 20 exactly and spreads
    that are 0.8165 and 8.165 to the four digits given; transforming
    [[2, 20]] with them gives [[0, 0]]. *)
Theorem specification_example :
  exists h' s1 s2,
    fit 0 example_fit VNone fresh = (inl (VRef 0), h') /\
    h' 0%nat = mk_ZScoreTransformer (Some [2; 20]) (Some [s1; s2]) /\
    close_to s1 (8165 / 10000) (5 / 100000) = true /\
    close_to s2 (8165 / 1000) (5 / 10000) = true /\
    transform 0 example_input h' = (inl (mk_ndarray 2 [[0; 0]]), h').
Proof.
  do 3 eexists. split; [reflexivity|].
  split; [vm_compute; reflexivity|].
  repeat split; vm_compute; reflexivity.
Qed.


Lemma transform_is_elementwise_z_score_witness :
  exists Z,
    transform 0 example_input example_fitted = (inl Z, example_fitted) /\
    nrows Z = nrows example_input /\ ncols Z = ncols example_input /\
    rectangular Z = true /\
    forall r c, (r < nrows example_input)%nat -> (c < ncols example_input)%nat ->
      item Z r c =
      u_true_divide
        (u_subtract (item example_input r c) (nth c (np_mean example_fit) zero))
        (nth c (np_std example_fit) zero).
Proof.
  apply (transform_is_elementwise_z_score 0 example_input example_fitted
           (m := np_mean example_fit) (s := np_std example_fit));
    reflexivity.
Defined.

(** C6 fails on a dataset without elements: nothing is subtracted from
    [None], so a never fitted instance returns the dataset. *)
Lemma transform_before_fit_returns_on_no_rows :
  fresh 0%nat = __init__ /\
  transform 0 no_rows fresh = (inl no_rows, fresh).
Proof. split; reflexivity. Qed.

Lemma transform_before_fit_raises_witness :
  transform 0 example_input fresh = (inr TypeError, fresh).
Proof.
  apply (transform_before_fit_raises 0 example_input fresh);
    [reflexivity | cbv; lia].
Defined.

(** C8 fails when one of the two column counts is 1: an instance fitted on
    one column transforms a dataset of three columns. *)
Lemma transform_broadcasts_one_column :
  mean_ (one_column_fitted 0%nat) = Some [2] /\
  std_ (one_column_fitted 0%nat) = Some [1] /\
  ncols three_columns = 3%nat /\
  transform 0 three_columns one_column_fitted =
  (inl (mk_ndarray 3 [[-1; 0; 1]]), one_column_fitted).
Proof. repeat split; vm_compute; reflexivity. Qed.

Lemma transform_column_count_mismatch_witness :
  transform 0 three_columns example_fitted = (inr ValueError, example_fitted).
Proof.
  apply (transform_column_count_mismatch 0 three_columns example_fitted
           (m := np_mean example_fit) (s := np_std example_fit));
    [reflexivity | reflexivity | reflexivity | cbv; lia ..].
Defined.

(** ** Division by a zero spread *)

(** IEEE 754 division by zero raises nothing: the quotient is NaN or an
    infinity. *)
Lemma div_by_zero_not_finite (x y : float) :
  (y =? 0) = true ->
  is_nan (x / y) = true \/ is_infinity (x / y) = true.
Proof.
  intros Hy. rewrite eqb_spec in Hy.
  change (Prim2SF 0) with (S754_zero false) in Hy.
  destruct (Prim2SF y) as [sy|[|]| |[|] my ey] eqn:Ey; try discriminate Hy.
  unfold is_nan, is_infinity.
  rewrite !eqb_spec, abs_spec, div_spec, Ey.
  change (Prim2SF infinity) with (S754_infinity false).
  destruct (Prim2SF x); cbn; auto.
Qed.

(** C7 fails: with a constant first column the stored spread is 0 and
    [transform] returns an array holding NaN, raising nothing. *)
Lemma transform_constant_column_returns_nan :
  exists h',
    fit 0 constant_column VNone fresh = (inl (VRef 0), h') /\
    h' 0%nat = mk_ZScoreTransformer (Some [5; 1.5]) (Some [0; 0.5]) /\
    transform 0 constant_column h' =
    (inl (mk_ndarray 2 [[nan; -1]; [nan; 1]]), h').
Proof.
  eexists. split; [reflexivity|]. split; vm_compute; reflexivity.
Qed.

(** C7, as the code has it.  No division is guarded: where the stored spread
    of a column is zero, [transform] still returns an array, and every entry
    of that column is NaN or infinite. *)
Theorem transform_zero_spread_not_finite self (X : ndarray float) h m s c :
  mean_ (h self) = Some m -> std_ (h self) = Some s ->
  length m = ncols X -> length s = ncols X -> rectangular X = true ->
  (c < ncols X)%nat -> (nth c s 0 =? 0) = true ->
  exists Z,
    transform self X h = (inl Z, h) /\
    forall r, (r < nrows X)%nat ->
      is_nan (item Z r c) = true \/ is_infinity (item Z r c) = true.
Proof.
  intros Hm Hs Hlm Hls Hrect Hc Hzero. exists (standardized m s X).
  split; [apply transform_fitted; assumption|].
  intros r Hr. rewrite standardized_item by assumption.
  apply div_by_zero_not_finite, Hzero.
Qed.

Lemma transform_zero_spread_not_finite_witness :
  exists Z,
    transform 0 constant_column (snd (fit 0 constant_column VNone fresh)) =
    (inl Z, snd (fit 0 constant_column VNone fresh)) /\
    forall r, (r < nrows constant_column)%nat ->
      is_nan (item Z r 0) = true \/ is_infinity (item Z r 0) = true.
Proof.
  apply (transform_zero_spread_not_finite 0 constant_column
           (snd (fit 0 constant_column VNone fresh))
           (m := np_mean constant_column) (s := np_std constant_column));
    [reflexivity | reflexivity | reflexivity | reflexivity | reflexivity
    | cbv; lia | reflexivity].
Defined.

(** ** A dataset without rows *)

(** C9 fails: [fit] on two columns and no rows raises nothing and stores
    NaN for both statistics of both columns. *)
Lemma fit_no_rows_stores_nan :
  nrows no_rows = 0%nat /\
  exists h',
    fit 0 no_rows VNone fresh = (inl (VRef 0), h') /\
    h' 0%nat = mk_ZScoreTransformer (Some [nan; nan]) (Some [nan; nan]).
Proof.
  split; [reflexivity|]. eexists. split; [reflexivity|].
  vm_compute; reflexivity.
Qed.

(** C9, as the code has it.  [fit] checks nothing: on a dataset with no rows
    and [k] columns it returns the instance, and the mean and the spread of
    every column are NaN (the empty sum 0 divided by the row count 0). *)
Theorem fit_without_rows_stores_nan self k (y : value float) h :
  exists h',
    fit self (mk_ndarray k []) y h = (inl (VRef self), h') /\
    h' self = mk_ZScoreTransformer (Some (repeat nan k)) (Some (repeat nan k)) /\
    forall a : addr, a <> self -> h' a = h a.
Proof.
  destruct (fit_run self (mk_ndarray k []) y h) as (h' & Hfit & Hself & Hother).
  exists h'. split; [exact Hfit|]. split; [|exact Hother].
  rewrite Hself. unfold np_std, np_var, np_mean, add_reduce; cbn.
  rewrite !map_repeat. reflexivity.
Qed.

(** ** Rounding *)


End Binary64.

(** * Properties of the arithmetic without rounding *)

Section ExactArithmetic.

Import Exact.

Open Scope R_scope.










End ExactArithmetic.

(** * Further properties of the methods *)

Section Composition.

Context {F : Type} `{Ufuncs F}.

Implicit Types (X Z : ndarray F) (h : heap F).

(** [fit_transform] on a rectangular array: the store after [fit] and the
    array of z-scores. *)
Lemma fit_transform_run self X (y : value F) h :
  rectangular X = true ->
  exists h',
    fit_transform self X y h =
    (inl (standardized (np_mean X) (np_std X) X), h') /\
    h' self = mk_ZScoreTransformer (Some (np_mean X)) (Some (np_std X)) /\
    (forall a : addr, a <> self -> h' a = h a).
Proof.
  intros Hrect.
  destruct (fit_run self X VNone h) as (h' & Hfit & Hself & Hother).
  exists h'. split; [|split; assumption].
  unfold fit_transform, bind. rewrite Hfit. cbn [call_transform].
  apply transform_fitted; rewrite ?Hself;
    auto using np_mean_length, np_std_length.
Qed.

(** X1. [fit_transform] never raises on a rectangular array, with or without
    rows: it returns an array of the shape of its input and leaves the
    instance fitted on that input, other instances untouched. *)
Theorem fit_transform_returns_same_shape self X (y : value F) h :
  rectangular X = true ->
  exists Z h',
    fit_transform self X y h = (inl Z, h') /\
    nrows Z = nrows X /\ ncols Z = ncols X /\ rectangular Z = true /\
    h' self = mk_ZScoreTransformer (Some (np_mean X)) (Some (np_std X)) /\
    (forall a : addr, a <> self -> h' a = h a).
Proof.
  intros Hrect.
  destruct (@fit_transform_run self X y h Hrect) as (h' & Hrun & Hself & Hother).
  exists (standardized (np_mean X) (np_std X) X), h'.
  split; [exact Hrun|].
  split; [apply standardized_nrows|].
  split; [reflexivity|].
  split; [|split; assumption].
  apply standardized_rectangular; auto using np_mean_length, np_std_length.
Qed.



(** X4. A second [fit] replaces the statistics wholesale: after [fit(X1)] and
    then [fit(X2)] every object of the store is what [fit(X2)] alone leaves. *)
Theorem refit_replaces_statistics self (X1 X2 : ndarray F) (y1 y2 : value F) h a :
  snd (fit self X2 y2 (snd (fit self X1 y1 h))) a = snd (fit self X2 y2 h) a.
Proof.
  unfold fit, bind, set_mean_, set_std_, ret, upd; cbn [fst snd].
  destruct (a =? self) eqn:Ea; [|reflexivity].
  rewrite !Nat.eqb_refl. reflexivity.
Qed.

(** X5. Instances do not share statistics: what [transform] returns or raises on
    one instance is not changed by a [fit] on another one. *)
Theorem fit_leaves_other_instances self a (X X' : ndarray F) (y : value F) h :
  a <> self ->
  fst (transform a X (snd (fit self X' y h))) = fst (transform a X h).
Proof.
  intros Ha.
  destruct (fit_run self X' y h) as (h' & Hfit & _ & Hother).
  rewrite Hfit; cbn [snd]. rewrite !transform_run; cbn [fst].
  rewrite (Hother a Ha). reflexivity.
Qed.

End Composition.

(** * Further properties in binary64 *)

Section MissingValues.

Import Float64.

Open Scope float_scope.

Implicit Types (x y : float) (l : list float).

(** ** NaN is absorbing *)

Lemma Prim2SF_nan x : Prim2SF x = S754_nan -> x = nan.
Proof. intros Hx. apply Prim2SF_inj. rewrite Hx. reflexivity. Qed.

Lemma add_nan_l y : nan + y = nan.
Proof. apply Prim2SF_nan. rewrite add_spec. reflexivity. Qed.

Lemma add_nan_r x : x + nan = nan.
Proof.
  apply Prim2SF_nan. rewrite add_spec.
  change (Prim2SF nan) with S754_nan. destruct (Prim2SF x); reflexivity.
Qed.

Lemma sub_nan_r x : x - nan = nan.
Proof.
  apply Prim2SF_nan. rewrite sub_spec.
  change (Prim2SF nan) with S754_nan. destruct (Prim2SF x); reflexivity.
Qed.

Lemma mul_nan_l y : nan * y = nan.
Proof. apply Prim2SF_nan. rewrite mul_spec. reflexivity. Qed.

Lemma div_nan_l y : nan / y = nan.
Proof. apply Prim2SF_nan. rewrite div_spec. reflexivity. Qed.

Lemma div_nan_r x : x / nan = nan.
Proof.
  apply Prim2SF_nan. rewrite div_spec.
  change (Prim2SF nan) with S754_nan. destruct (Prim2SF x); reflexivity.
Qed.

Lemma fold_add_from_nan l : fold_left PrimFloat.add l nan = nan.
Proof.
  induction l as [|x l IH]; simpl; [reflexivity|].
  rewrite add_nan_l. exact IH.
Qed.

Lemma fold_add_with_nan l x : In nan l -> fold_left PrimFloat.add l x = nan.
Proof.
  revert x; induction l as [|x' l IH]; intros x Hin; simpl; [destruct Hin|].
  destruct Hin as [->|Hin].
  - rewrite add_nan_r. apply fold_add_from_nan.
  - apply IH, Hin.
Qed.

Lemma total_with_nan l : In nan l -> total l = nan.
Proof.
  destruct l as [|x l]; intros Hin; [destruct Hin|].
  cbn [total u_add ufuncs]. destruct Hin as [->|Hin].
  - apply fold_add_from_nan.
  - apply fold_add_with_nan, Hin.
Qed.

Lemma arithmetic_mean_with_nan l : In nan l -> arithmetic_mean l = nan.
Proof.
  intros Hin. unfold arithmetic_mean. rewrite total_with_nan by assumption.
  apply div_nan_l.
Qed.

Lemma population_std_with_nan l : In nan l -> population_std l = nan.
Proof.
  intros Hin. unfold population_std.
  rewrite arithmetic_mean_with_nan by assumption.
  rewrite total_with_nan.
  - cbn [u_true_divide u_sqrt ufuncs]. rewrite div_nan_l. reflexivity.
  - apply in_map_iff. exists nan. split; [|assumption].
    unfold squared_deviation. cbn [u_multiply u_subtract ufuncs].
    rewrite sub_nan_r. apply mul_nan_l.
Qed.

Lemma item_in_column (X : ndarray float) r c :
  (r < nrows X)%nat -> In (item X r c) (column X c).
Proof.
  intros Hr. unfold item, column.
  apply (in_map (fun row => nth c row zero)), nth_In, Hr.
Qed.

(** X8. A NaN anywhere in a column poisons the whole column: [fit_transform]
    raises nothing, stores NaN as the mean and as the spread of that column,
    and returns NaN in every row of it. *)
Theorem nan_poisons_its_column self (X : ndarray float) (y : value float) h r0 c :
  rectangular X = true -> (r0 < nrows X)%nat -> (c < ncols X)%nat ->
  item X r0 c = nan ->
  exists Z h' m s,
    fit_transform self X y h = (inl Z, h') /\
    h' self = mk_ZScoreTransformer (Some m) (Some s) /\
    nth c m 0 = nan /\ nth c s 0 = nan /\
    forall r, (r < nrows X)%nat -> item Z r c = nan.
Proof.
  intros Hrect Hr0 Hc Hnan.
  assert (Hin : In nan (column X c))
    by (rewrite <- Hnan; apply item_in_column, Hr0).
  destruct (@fit_transform_run _ _ self X y h Hrect) as (h' & Hrun & Hself & _).
  assert (Hm : nth c (np_mean X) 0 = nan).
  { change 0 with (@zero float ufuncs).
    rewrite np_mean_nth by (assumption || lia).
    apply arithmetic_mean_with_nan, Hin. }
  assert (Hs : nth c (np_std X) 0 = nan).
  { change 0 with (@zero float ufuncs).
    rewrite np_std_nth by (assumption || lia).
    apply population_std_with_nan, Hin. }
  exists (standardized (np_mean X) (np_std X) X), h', (np_mean X), (np_std X).
  repeat (split; [assumption|]).
  intros r Hr.
  rewrite standardized_item by auto using np_mean_length, np_std_length.
  change (@zero float ufuncs) with 0. rewrite Hm, Hs.
  unfold z_score. cbn [u_true_divide ufuncs]. apply div_nan_r.
Qed.

Lemma nan_poisons_its_column_witness :
  exists Z h' m s,
    fit_transform 0 with_nan VNone fresh = (inl Z, h') /\
    h' 0%nat = mk_ZScoreTransformer (Some m) (Some s) /\
    nth 1 m 0 = nan /\ nth 1 s 0 = nan /\
    forall r, (r < nrows with_nan)%nat -> item Z r 1 = nan.
Proof.
  apply (nan_poisons_its_column 0 with_nan VNone fresh (r0 := 0) (c := 1));
    [reflexivity | cbv; lia | cbv; lia | reflexivity].
Defined.

(** ** The sign of the spread *)

Lemma binary_round_aux_not_negative mx ex lx :
  SFltb (binary_round_aux prec emax false mx ex lx) (S754_zero false) = false.
Proof.
  unfold binary_round_aux.
  destruct (shr_fexp prec emax mx ex lx) as [mrs e].
  destruct (shr_fexp prec emax _ e loc_Exact) as [mrs' e'].
  destruct (shr_m mrs'); [reflexivity| |reflexivity].
  destruct (Z.leb e' (emax - prec)); reflexivity.
Qed.

Lemma sqrt_not_negative x : (PrimFloat.sqrt x <? 0) = false.
Proof.
  rewrite ltb_spec, sqrt_spec. change (Prim2SF 0) with (S754_zero false).
  unfold SF64sqrt, SFsqrt.
  destruct (Prim2SF x) as [sx|[|]| |[|] mx ex]; try reflexivity.
  destruct (SFsqrt_core_binary prec emax (Zpos mx) ex) as [[mz ez] lz].
  apply binary_round_aux_not_negative.
Qed.

(** X9. The spread [fit] stores is never negative, whatever the data: every
    entry is NaN, a zero or positive. *)
Theorem stored_spread_not_negative self (X : ndarray float) (y : value float) h :
  exists h' s,
    fit self X y h = (inl (VRef self), h') /\
    std_ (h' self) = Some s /\
    Forall (fun v => (v <? 0) = false) s.
Proof.
  destruct (fit_run self X y h) as (h' & Hfit & Hself & _).
  exists h', (np_std X). split; [exact Hfit|].
  split; [rewrite Hself; reflexivity|].
  unfold np_std. apply Forall_map, Forall_forall. intros v _.
  apply sqrt_not_negative.
Qed.

End MissingValues.

(** * Invariants of the store *)

Section Lifecycle.

Context {F : Type} `{Ufuncs F}.

Implicit Types (X : ndarray F) (h : heap F) (c : call F) (cs : list (call F)).

Lemma transform_store self X h : snd (transform self X h) = h.
Proof. rewrite transform_run. reflexivity. Qed.

Lemma fit_transform_store self X (y : value F) h :
  snd (fit_transform self X y h) = snd (fit self X y h).
Proof.
  unfold fit_transform, bind.
  destruct (fit_run self X VNone h) as (h' & Hfit & _).
  rewrite Hfit. cbn [call_transform]. rewrite transform_store.
  change (fit self X y h) with (fit self X VNone h). rewrite Hfit. reflexivity.
Qed.

(** What a call leaves at an address: the statistics of its input when it
    fits that address, and what was there otherwise. *)
Lemma run_call_at h c a :
  run_call h c a = h a \/
  run_call h c a =
  mk_ZScoreTransformer (Some (np_mean (call_input c)))
                       (Some (np_std (call_input c))).
Proof.
  destruct c as [self X y|self X|self X y]; cbn [run_call call_input].
  - destruct (fit_run self X y h) as (h' & Hfit & Hself & Hother).
    rewrite Hfit; cbn [snd].
    destruct (Nat.eq_dec a self) as [->|Ha]; [right; exact Hself|].
    left; apply Hother, Ha.
  - left. rewrite transform_store. reflexivity.
  - rewrite fit_transform_store.
    destruct (fit_run self X y h) as (h' & Hfit & Hself & Hother).
    rewrite Hfit; cbn [snd].
    destruct (Nat.eq_dec a self) as [->|Ha]; [right; exact Hself|].
    left; apply Hother, Ha.
Qed.

Lemma run_calls_snoc cs c h :
  run_calls (cs ++ [c]) h = run_call (run_calls cs h) c.
Proof. unfold run_calls. rewrite fold_left_app. reflexivity. Qed.

(** X6. The statistics are never half set.  Whatever methods a client calls on
    whatever instances, with rectangular arrays, in whatever order, and
    whether or not some of the calls raise, every instance has either both
    attributes [None] or a mean and a spread of the same length. *)
Theorem statistics_never_half_set cs a :
  Forall (fun c => rectangular (call_input c) = true) cs ->
  consistent (run_calls cs initial a).
Proof.
  induction cs as [|c cs IH] using rev_ind; intros Hcs.
  - exact I.
  - apply Forall_app in Hcs as [Hcs Hc].
    apply Forall_inv in Hc. rewrite run_calls_snoc.
    destruct (run_call_at (run_calls cs initial) c a) as [-> | ->].
    + apply IH, Hcs.
    + unfold consistent; cbn [mean_ std_].
      rewrite np_mean_length, np_std_length by assumption. reflexivity.
Qed.

(** X7. Fitting is one way: no call makes a fitted instance unfitted. *)
Theorem fitted_stays_fitted cs h a :
  fitted (h a) = true -> fitted (run_calls cs h a) = true.
Proof.
  intros Hfitted. induction cs as [|c cs IH] using rev_ind.
  - exact Hfitted.
  - rewrite run_calls_snoc.
    destruct (run_call_at (run_calls cs h) c a) as [-> | ->];
      [exact IH | reflexivity].
Qed.

End Lifecycle.

(** * Instances of the properties above *)

Section Instances.

Import Float64.

Lemma fit_transform_returns_same_shape_witness :
  exists Z h',
    fit_transform 0 no_rows VNone fresh = (inl Z, h') /\
    nrows Z = nrows no_rows /\ ncols Z = ncols no_rows /\
    rectangular Z = true /\
    h' 0 = mk_ZScoreTransformer (Some (np_mean no_rows)) (Some (np_std no_rows)) /\
    (forall a : addr, a <> 0 -> h' a = fresh a).
Proof.
  apply (@fit_transform_returns_same_shape _ _ 0 no_rows VNone fresh);
    reflexivity.
Defined.



Lemma fit_leaves_other_instances_witness :
  fst (transform 1 example_input (snd (fit 0 one_column VNone example_fitted))) =
  fst (transform 1 example_input example_fitted).
Proof.
  apply (@fit_leaves_other_instances _ _ 0 1 example_input one_column VNone
            example_fitted).
  cbv; lia.
Defined.

Lemma statistics_never_half_set_witness :
  consistent (run_calls early_client initial 0).
Proof.
  apply (@statistics_never_half_set _ _ early_client 0).
  repeat constructor.
Defined.

Lemma fitted_stays_fitted_witness :
  fitted (run_calls late_client example_fitted 0) = true.
Proof.
  apply (@fitted_stays_fitted _ _ late_client example_fitted 0). reflexivity.
Defined.

End Instances.

(** * Further properties without rounding *)

Section Idempotence.

Import Exact.

Open Scope R_scope.



End Idempotence.

(** * Broadcasting between different widths *)

Section Broadcasting.

Context {F : Type} `{Ufuncs F}.

Implicit Types (X Z : ndarray F) (h : heap F) (l v m s : list F).

Lemma broadcast_dim_one_r k : broadcast_dim k 1 = Some k.
Proof.
  unfold broadcast_dim. destruct (Nat.eqb_spec k 1) as [->|Hk]; reflexivity.
Qed.

Lemma broadcast_dim_one_l k : broadcast_dim 1 k = Some k.
Proof.
  unfold broadcast_dim. destruct (Nat.eqb_spec 1 k) as [<-|Hk]; reflexivity.
Qed.

Lemma zip_with_repeat_r (op : F -> F -> F) l x :
  zip_with op l (repeat x (length l)) = map (fun a => op a x) l.
Proof. induction l as [|a l IH]; simpl; [|rewrite IH]; reflexivity. Qed.

Lemma zip_with_repeat_l (op : F -> F -> F) l x :
  zip_with op (repeat x (length l)) l = map (fun a => op x a) l.
Proof. induction l as [|a l IH]; simpl; [|rewrite IH]; reflexivity. Qed.

(** An operand of one entry is applied to every entry of the array. *)
Lemma broadcast_binop_scalar (op : F -> F -> F) X x :
  rectangular X = true ->
  broadcast_binop op X [x] =
  inl (mk_ndarray (ncols X) (map (map (fun a => op a x)) (rows X))).
Proof.
  intros Hrect. pose proof (proj1 (rectangular_spec X) Hrect) as Hrows.
  unfold broadcast_binop. cbn [length]. rewrite broadcast_dim_one_r.
  do 2 f_equal. apply map_ext_in. intros r Hin.
  rewrite stretch_same by auto. cbn [stretch].
  rewrite <- (Hrows r Hin). apply zip_with_repeat_r.
Qed.

Lemma mapped_rectangular (f : F -> F) X :
  rectangular X = true ->
  rectangular (mk_ndarray (ncols X) (map (map f) (rows X))) = true.
Proof.
  intros Hrect. pose proof (proj1 (rectangular_spec X) Hrect) as Hrows.
  apply rectangular_spec; simpl. intros r Hin.
  apply in_map_iff in Hin as (r0 & <- & Hin0).
  rewrite length_map. auto.
Qed.

Lemma mapped_item (f : F -> F) X r c :
  rectangular X = true -> r < nrows X -> c < ncols X ->
  item (mk_ndarray (ncols X) (map (map f) (rows X))) r c = f (item X r c).
Proof.
  intros Hrect Hr Hc. pose proof (proj1 (rectangular_spec X) Hrect) as Hrows.
  unfold item, nrows in *; simpl.
  rewrite nth_map_lt with (d := []) by assumption.
  apply nth_map_lt.
  rewrite (Hrows (nth r (rows X) [])); [assumption | apply nth_In; assumption].
Qed.

(** X11. An instance fitted on a single column accepts an input of any width and
    raises nothing: every column of the input is standardized with the
    statistics of that one fitted column. *)
Theorem transform_with_one_fitted_column self X h mu sigma :
  mean_ (h self) = Some [mu] -> std_ (h self) = Some [sigma] ->
  rectangular X = true ->
  exists Z,
    transform self X h = (inl Z, h) /\
    nrows Z = nrows X /\ ncols Z = ncols X /\
    forall r c, r < nrows X -> c < ncols X ->
      item Z r c = z_score mu sigma (item X r c).
Proof.
  intros Hm Hs Hrect. rewrite transform_run, Hm, Hs. cbn [array_binop].
  rewrite broadcast_binop_scalar by assumption.
  set (D := mk_ndarray (ncols X) (map (map (fun a => u_subtract a mu)) (rows X))).
  assert (HD : rectangular D = true) by (apply mapped_rectangular, Hrect).
  rewrite broadcast_binop_scalar by assumption.
  eexists. split; [reflexivity|].
  split; [unfold nrows; cbn [rows D]; rewrite !length_map; reflexivity|].
  split; [reflexivity|].
  intros r c Hr Hc.
  change (ncols D) with (ncols X). unfold z_score.
  rewrite (mapped_item (fun a => u_true_divide a sigma) D (r := r) (c := c));
    [|exact HD| |exact Hc].
  - unfold D. rewrite mapped_item by assumption. reflexivity.
  - unfold D, nrows in *; cbn [rows]. rewrite length_map. exact Hr.
Qed.

Lemma broadcast_binop_single_column (op : F -> F -> F) X v :
  ncols X = 1 ->
  broadcast_binop op X v =
  inl (mk_ndarray (length v)
         (map (fun r => zip_with op (stretch (length v) r)
                                    (stretch (length v) v)) (rows X))).
Proof.
  intros Hone. unfold broadcast_binop.
  rewrite Hone, broadcast_dim_one_l. reflexivity.
Qed.

Lemma single_column_row X r :
  rectangular X = true -> ncols X = 1 -> r < nrows X ->
  nth r (rows X) [] = [item X r 0].
Proof.
  intros Hrect Hone Hr. pose proof (proj1 (rectangular_spec X) Hrect) as Hrows.
  unfold item. assert (Hlen : length (nth r (rows X) []) = 1)
    by (rewrite <- Hone; apply Hrows, nth_In, Hr).
  destruct (nth r (rows X) []) as [|x [|x' l]]; try discriminate Hlen.
  reflexivity.
Qed.

(** X12. An input of a single column is accepted by an instance fitted on any
    number of columns, raising nothing: the result has the fitted width, and
    its column [c] holds the z-scores of the single input column for the
    statistics of the fitted column [c]. *)
Theorem transform_single_column_input self X h m s :
  mean_ (h self) = Some m -> std_ (h self) = Some s ->
  length s = length m ->
  rectangular X = true -> ncols X = 1 ->
  exists Z,
    transform self X h = (inl Z, h) /\
    nrows Z = nrows X /\ ncols Z = length m /\
    forall r c, r < nrows X -> c < length m ->
      item Z r c = z_score (nth c m zero) (nth c s zero) (item X r 0).
Proof.
  intros Hm Hs Hlen Hrect Hone.
  pose proof (proj1 (rectangular_spec X) Hrect) as Hrows.
  rewrite transform_run, Hm, Hs. cbn [array_binop].
  rewrite broadcast_binop_single_column by exact Hone.
  set (D := mk_ndarray (length m) _).
  assert (Hrow : forall r, r < nrows X ->
            nth r (rows D) [] = map (fun a => u_subtract (item X r 0) a) m).
  { intros r Hr. unfold D; cbn [rows].
    rewrite nth_map_lt with (d := []) by exact Hr.
    rewrite single_column_row by assumption. cbn [stretch].
    rewrite stretch_same by reflexivity. apply zip_with_repeat_l. }
  assert (HD : rectangular D = true).
  { apply rectangular_spec. unfold D; cbn [rows ncols]. intros r Hin.
    apply in_map_iff in Hin as (r0 & <- & Hin0).
    assert (Hr0 : length r0 = 1) by (rewrite <- Hone; auto).
    destruct r0 as [|x [|x' l]]; try discriminate Hr0. cbn [stretch].
    rewrite stretch_same by reflexivity.
    rewrite zip_with_length, repeat_length. lia. }
  rewrite broadcast_binop_same by (assumption || exact Hlen).
  eexists. split; [reflexivity|].
  split; [unfold nrows, D; cbn [rows]; rewrite !length_map; reflexivity|].
  split; [reflexivity|].
  intros r c Hr Hc. change (length m) with (ncols D).
  rewrite zipped_item; [|exact HD|exact Hlen| |exact Hc].
  - unfold item at 1. rewrite Hrow by exact Hr.
    rewrite nth_map_lt with (d := zero) by exact Hc. reflexivity.
  - unfold nrows, D in *; cbn [rows]. rewrite length_map. exact Hr.
Qed.

End Broadcasting.

Section BroadcastingInstances.

Import Float64.

Open Scope float_scope.

Lemma transform_with_one_fitted_column_witness :
  exists Z,
    transform 0 three_columns one_column_fitted = (inl Z, one_column_fitted) /\
    nrows Z = nrows three_columns /\ ncols Z = ncols three_columns /\
    forall r c, (r < nrows three_columns)%nat -> (c < ncols three_columns)%nat ->
      item Z r c = z_score 2 1 (item three_columns r c).
Proof.
  apply (@transform_with_one_fitted_column _ _ 0 three_columns
           one_column_fitted 2 1); reflexivity.
Defined.

Lemma transform_single_column_input_witness :
  exists Z,
    transform 0 one_column example_fitted = (inl Z, example_fitted) /\
    nrows Z = nrows one_column /\ ncols Z = length (np_mean example_fit) /\
    forall r c, (r < nrows one_column)%nat ->
                (c < length (np_mean example_fit))%nat ->
      item Z r c =
      z_score (nth c (np_mean example_fit) zero)
              (nth c (np_std example_fit) zero) (item one_column r 0).
Proof.
  apply (@transform_single_column_input _ _ 0 one_column example_fitted
           (np_mean example_fit) (np_std example_fit)); reflexivity.
Defined.

End BroadcastingInstances.
